(** * topology_docker: the base Docker node

    A shallow embedding of [lib/topology_docker/node.py] (class
    [DockerNode]) and the properties of its lifecycle operations.

    The node talks to two collaborators that are not part of the module:
    the docker client ([self._client]) and the shell-execution entry point
    of the base node ([self(...)]).  Every call to either of them is an
    externally visible event that may raise.  The embedding threads the
    node object and the history of issued calls through a small state and
    error monad; the collaborators are an arbitrary function from the
    history and the call to an outcome.  They answer calls and do nothing
    else: they do not assign to the attributes of the node. *)

From Stdlib Require Import Ascii.
From stdpp Require Import gmap strings list pretty.

Set Warnings "-register-all".

(** ** Python values *)

(** The values the collaborators hand back: JSON-like responses. *)
Inductive value : Type :=
| VNone
| VBool (b : bool)
| VInt (z : Z)
| VStr (s : string)
| VList (items : list value)
| VDict (entries : list (string * value)).

(** The exceptions that can travel through the node's methods: the lookup
    failures of the subscripts written in the module, and whatever the
    collaborators raise. *)
Inductive Exc : Type :=
| KeyError (key : string)
| TypeError
| APIError (message : string).

(** First binding of [k] in an ordered sequence of entries. *)
Fixpoint assoc {V : Type} (k : string) (entries : list (string * V)) : option V :=
  match entries with
  | [] => None
  | (k', v) :: rest => if decide (k = k') then Some v else assoc k rest
  end.

(** [d[k]] for a string key: only a dict can be subscripted by a string. *)
Definition getitem (d : value) (k : string) : Exc + value :=
  match d with
  | VDict entries =>
      match assoc k entries with
      | Some v => inr v
      | None => inl (KeyError k)
      end
  | _ => inl TypeError
  end.

(** ** Calls to the collaborators *)

(** A docker call is recorded by its method and its arguments, a command
    run in the node by its text and its shell.  The receivers are not
    recorded: every docker call is made on the client the node created at
    construction, which no operation replaces, and every command is run in
    the node itself. *)
Inductive Call : Type :=
| Client_init
| Client_create_host_config (privileged : bool) (network_mode : string) (binds : value)
| Client_create_container (image command name : string) (detach tty : bool)
    (host_config : value)
| Client_start (container : value)
| Client_inspect_container (container : value)
| Client_stop (container : value)
| Client_wait (container : value)
| Client_remove_container (container : value)
| Client_pause (container : value)
| Client_unpause (container : value)
| Node_call (command shell : string).

Inductive Outcome : Type :=
| Returns (v : value)
| Raises (e : Exc).

(** The collaborators: what the next call does after a given history. *)
Definition Runtime : Type := list Call -> Call -> Outcome.

Definition is_client_start (c : Call) : bool :=
  match c with Client_start _ => true | _ => false end.

(** ** The node object *)

(** [ports] is the ordered mapping of the base node (label to interface
    name), kept as its sequence of items in iteration order. *)
Record DockerNode : Type := mkDockerNode {
  identifier : string;
  ports : list (string * string);
  _pid : value;
  _image : string;
  _command : string;
  _client : value;
  _host_config : value;
  container_id : value
}.

Definition set_pid (pid : value) (self : DockerNode) : DockerNode :=
  {| identifier := identifier self;
     ports := ports self;
     _pid := pid;
     _image := _image self;
     _command := _command self;
     _client := _client self;
     _host_config := _host_config self;
     container_id := container_id self |}.

(** The specification port handed to [notify_add_biport]. *)
Record BidirectionalPort : Type := mkBiport {
  biport_identifier : string;
  biport_metadata : gmap string string
}.

(** ** The monad *)

(** Result of running a computation: the object as the computation left
    it, every call issued so far, and the value or the exception. *)
Record Run (S A : Type) : Type := mkRun {
  st : S;
  tr : list Call;
  val : Exc + A
}.
Arguments mkRun {S A} _ _ _.
Arguments st {S A} _.
Arguments tr {S A} _.
Arguments val {S A} _.

Definition M (S A : Type) : Type := Runtime -> S -> list Call -> Run S A.

Definition ret {S A : Type} (a : A) : M S A :=
  fun _ s h => mkRun s h (inr a).

Definition raise {S A : Type} (e : Exc) : M S A :=
  fun _ s h => mkRun s h (inl e).

Definition bind {S A B : Type} (m : M S A) (f : A -> M S B) : M S B :=
  fun rt s h =>
    let r := m rt s h in
    match val r with
    | inl e => mkRun (st r) (tr r) (inl e)
    | inr a => f a rt (st r) (tr r)
    end.

Definition get {S : Type} : M S S :=
  fun _ s h => mkRun s h (inr s).

(** Attribute assignment on the object: [self.x = v]. *)
Definition modify {S : Type} (g : S -> S) : M S unit :=
  fun _ s h => mkRun (g s) h (inr tt).

(** Issue one call: it is recorded whether it returns or raises. *)
Definition call {S : Type} (c : Call) : M S value :=
  fun rt s h =>
    match rt h c with
    | Returns v => mkRun s (h ++ [c]) (inr v)
    | Raises e => mkRun s (h ++ [c]) (inl e)
    end.

Definition lift {S A : Type} (x : Exc + A) : M S A :=
  match x with
  | inl e => raise e
  | inr a => ret a
  end.

Declare Scope py_scope.
Delimit Scope py_scope with py.
Notation "x <- m ;; k" := (bind m (fun x => k))
  (at level 100, m at next level, right associativity) : py_scope.
Notation "m ;;; k" := (bind m (fun _ => k))
  (at level 100, right associativity) : py_scope.
Local Open Scope py_scope.

(** [for x in xs: body(x)] *)
Fixpoint for_each {S A : Type} (xs : list A) (body : A -> M S unit) : M S unit :=
  match xs with
  | [] => ret tt
  | x :: rest => body x ;;; for_each rest body
  end.

(** ** The class *)

Definition default_image : string := "ubuntu".
Definition default_command : string := "bash".
Definition default_binds : value := VNone.
Definition default_network_mode : string := "none".

(** ['{}_{}'.format(identifier, str(id(self)))] *)
Definition container_name (identifier : string) (self_id : Z) : string :=
  identifier +:+ "_" +:+ pretty self_id.

(** Modelled from the spec: the constructor of the base node
    ([topology.platforms.base.CommonNode.__init__], not part of this module)
    records the identifier and starts with an empty port registry; the
    extra keyword configuration it forwards plays no role here. *)
Definition CommonNode_init (identifier : string) : string * list (string * string) :=
  (identifier, []).

(** [DockerNode.__init__]; [self_id] is [id(self)].  The object only
    becomes visible to the caller when the constructor returns, so the
    attribute assignments are gathered in the record built at the end. *)
Definition __init__ (identifier image command : string) (binds : value)
    (network_mode : string) (self_id : Z) : M unit DockerNode :=
  let base := CommonNode_init identifier in
  client <- call Client_init ;;
  host_config <- call (Client_create_host_config true network_mode binds) ;;
  created <- call (Client_create_container image command
                     (container_name identifier self_id) true true host_config) ;;
  cid <- lift (getitem created "Id") ;;
  ret {| identifier := base.1;
         ports := base.2;
         _pid := VNone;
         _image := image;
         _command := command;
         _client := client;
         _host_config := host_config;
         container_id := cid |}.

Definition notify_add_biport (node : value) (biport : BidirectionalPort)
  : M DockerNode string :=
  ret (default (biport_identifier biport) (biport_metadata biport !! "label")).

Definition notify_add_bilink (nodeport : value) (bilink : value) : M DockerNode unit :=
  ret tt.

Definition notify_post_build : M DockerNode unit :=
  ret tt.

Definition start : M DockerNode unit :=
  self <- get ;;
  call (Client_start (container_id self)) ;;;
  self <- get ;;
  inspected <- call (Client_inspect_container (container_id self)) ;;
  state <- lift (getitem inspected "State") ;;
  pid <- lift (getitem state "Pid") ;;
  modify (set_pid pid).

Definition stop : M DockerNode unit :=
  self <- get ;;
  call (Client_stop (container_id self)) ;;;
  self <- get ;;
  call (Client_wait (container_id self)) ;;;
  self <- get ;;
  call (Client_remove_container (container_id self)) ;;;
  ret tt.

(** ['ip link set dev {} {}'.format(iface, 'up' if state else 'down')] *)
Definition ip_link_set (iface : string) (state : bool) : string :=
  "ip link set dev " +:+ iface +:+ " " +:+ (if state then "up" else "down").

(** [self.ports[portlbl]] *)
Definition ports_getitem (ports : list (string * string)) (portlbl : string)
  : Exc + string :=
  match assoc portlbl ports with
  | Some iface => inr iface
  | None => inl (KeyError portlbl)
  end.

Definition port_state (portlbl : string) (state : bool) : M DockerNode unit :=
  self <- get ;;
  iface <- lift (ports_getitem (ports self) portlbl) ;;
  call (Node_call (ip_link_set iface state) "bash") ;;;
  ret tt.

Definition pause : M DockerNode unit :=
  self <- get ;;
  for_each (ports self).*1 (fun portlbl => port_state portlbl false) ;;;
  self <- get ;;
  call (Client_pause (container_id self)) ;;;
  ret tt.

Definition unpause : M DockerNode unit :=
  self <- get ;;
  call (Client_unpause (container_id self)) ;;;
  self <- get ;;
  for_each (ports self).*1 (fun portlbl => port_state portlbl true) ;;;
  ret tt.

(** ** Derived notions *)

(** Issue the calls of [cs] one after the other, stopping at the first one
    that raises: the shape every lifecycle operation reduces to. *)
Fixpoint issue {S : Type} (cs : list Call) : M S unit :=
  match cs with
  | [] => ret tt
  | c :: rest => call c ;;; issue rest
  end.

(** The shell command [port_state] issues for one item of the registry. *)
Definition interface_command (state : bool) (item : string * string) : Call :=
  Node_call (ip_link_set item.2 state) "bash".

(** The attributes assigned at construction and read afterwards. *)
Definition construction_fields (self : DockerNode) : value * string * string * value :=
  (container_id self, _image self, _command self, _host_config self).

(** [Frame f m]: running [m] leaves the component [f] of the object as it
    was, whether [m] returns or raises. *)
Definition Frame {S A B : Type} (f : S -> B) (m : M S A) : Prop :=
  forall rt s h, f (st (m rt s h)) = f s.

(** [Propagates m]: [m] only ever appends to the history, and a call of
    [m] that raises is the last one [m] issues and its exception is the
    result of [m], unchanged. *)
Definition Propagates {S A : Type} (m : M S A) : Prop :=
  forall rt s h,
    exists out,
      tr (m rt s h) = h ++ out /\
      forall pre c post e,
        out = pre ++ c :: post ->
        rt (h ++ pre) c = Raises e ->
        post = [] /\ val (m rt s h) = inl e.

(** No character of the string is an underscore. *)
Fixpoint underscore_free (s : string) : bool :=
  match s with
  | EmptyString => true
  | String c rest => if decide (c = "_"%char) then false else underscore_free rest
  end.

(** A call an operation may issue on behalf of the node whose container is
    [cid]: a docker call on that container, or a command run through bash. *)
Definition own_call (cid : value) (c : Call) : Prop :=
  match c with
  | Client_start v | Client_inspect_container v
  | Client_stop v | Client_wait v | Client_remove_container v
  | Client_pause v | Client_unpause v => v = cid
  | Node_call _ shell => shell = "bash"
  | _ => False
  end.

Definition is_shell_command (c : Call) : bool :=
  match c with Node_call _ _ => true | _ => false end.

(** ** Sample collaborators and objects *)

(** A runtime on which every call returns. *)
Definition rt_ok : Runtime :=
  fun _ c =>
    match c with
    | Client_create_container _ _ _ _ _ _ => Returns (VDict [("Id", VStr "c0ffee")])
    | Client_inspect_container _ =>
        Returns (VDict [("State", VDict [("Pid", VInt 4242)])])
    | _ => Returns VNone
    end.

(** A runtime on which [wait] raises. *)
Definition rt_wait_fails : Runtime :=
  fun h c =>
    match c with
    | Client_wait _ => Raises (APIError "wait")
    | _ => rt_ok h c
    end.

(** A runtime on which every shell command raises. *)
Definition rt_shell_fails : Runtime :=
  fun h c =>
    match c with
    | Node_call _ _ => Raises (APIError "exec")
    | _ => rt_ok h c
    end.

Definition n1 : DockerNode :=
  {| identifier := "n1";
     ports := [("p1", "eth1"); ("p2", "eth2")];
     _pid := VNone;
     _image := "ubuntu";
     _command := "bash";
     _client := VNone;
     _host_config := VNone;
     container_id := VStr "c0ffee" |}.

(** A runtime whose creation response carries no ['Id']. *)
Definition rt_no_id : Runtime :=
  fun h c =>
    match c with
    | Client_create_container _ _ _ _ _ _ => Returns (VDict [("Warnings", VNone)])
    | _ => rt_ok h c
    end.

(** A runtime whose inspect response carries a ['State'] with no ['Pid']. *)
Definition rt_no_pid : Runtime :=
  fun h c =>
    match c with
    | Client_inspect_container _ => Returns (VDict [("State", VDict [])])
    | _ => rt_ok h c
    end.

(** A runtime on which [unpause] raises. *)
Definition rt_unpause_fails : Runtime :=
  fun h c =>
    match c with
    | Client_unpause _ => Raises (APIError "unpause")
    | _ => rt_ok h c
    end.

(** ** Laws of the monad *)

Create HintDb frame.
Create HintDb propagates.

Section Laws.
Context {S : Type}.

Lemma frame_ret {A B} (f : S -> B) (a : A) : Frame f (ret a).
Proof. intros rt s h. reflexivity. Qed.

Lemma frame_raise {A B} (f : S -> B) (e : Exc) : Frame f (raise (A := A) e).
Proof. intros rt s h. reflexivity. Qed.

Lemma frame_get {B} (f : S -> B) : Frame f get.
Proof. intros rt s h. reflexivity. Qed.

Lemma frame_lift {A B} (f : S -> B) (x : Exc + A) : Frame f (lift x).
Proof. destruct x; intros rt s h; reflexivity. Qed.

Lemma frame_call {B} (f : S -> B) (c : Call) : Frame f (call c).
Proof. intros rt s h. unfold call. destruct (rt h c); reflexivity. Qed.

Lemma frame_modify {B} (f : S -> B) (g : S -> S) :
  (forall s, f (g s) = f s) -> Frame f (modify g).
Proof. intros Hg rt s h. apply Hg. Qed.

Lemma frame_bind {A A' B} (f : S -> B) (m : M S A) (k : A -> M S A') :
  Frame f m -> (forall a, Frame f (k a)) -> Frame f (bind m k).
Proof.
  intros Hm Hk rt s h. unfold bind.
  destruct (val (m rt s h)) as [e|a] eqn:E; cbn.
  - apply Hm.
  - rewrite Hk. apply Hm.
Qed.

Lemma frame_for_each {A B} (f : S -> B) (xs : list A) (body : A -> M S unit) :
  (forall x, Frame f (body x)) -> Frame f (for_each xs body).
Proof.
  intros Hb. induction xs as [|x xs IH]; cbn.
  - apply frame_ret.
  - apply frame_bind; auto.
Qed.

Lemma propagates_silent {A} (m : M S A) :
  (forall rt s h, tr (m rt s h) = h) -> Propagates m.
Proof.
  intros Hm rt s h. exists []. rewrite Hm, app_nil_r. split; [done|].
  intros pre c post e Hout. by destruct pre.
Qed.

Lemma propagates_ret {A} (a : A) : Propagates (ret (S := S) a).
Proof. by apply propagates_silent. Qed.

Lemma propagates_raise {A} (e : Exc) : Propagates (raise (S := S) (A := A) e).
Proof. by apply propagates_silent. Qed.

Lemma propagates_get : Propagates (get (S := S)).
Proof. by apply propagates_silent. Qed.

Lemma propagates_modify (g : S -> S) : Propagates (modify g).
Proof. by apply propagates_silent. Qed.

Lemma propagates_lift {A} (x : Exc + A) : Propagates (lift (S := S) x).
Proof. destruct x; by apply propagates_silent. Qed.

Lemma propagates_call (c : Call) : Propagates (call (S := S) c).
Proof.
  intros rt s h. exists [c]. split.
  - unfold call. by destruct (rt h c).
  - intros pre c' post e Hout Hrt.
    destruct pre as [|c0 pre]; simplify_eq/=.
    + rewrite app_nil_r in Hrt. unfold call. by rewrite Hrt.
    + by destruct pre.
Qed.

Lemma propagates_bind {A B} (m : M S A) (k : A -> M S B) :
  Propagates m -> (forall a, Propagates (k a)) -> Propagates (bind m k).
Proof.
  intros Hm Hk rt s h.
  destruct (Hm rt s h) as (out1 & Htr1 & Hp1).
  unfold bind. destruct (val (m rt s h)) as [e1|a] eqn:E; cbn.
  - exists out1. split; [done|].
    intros pre c post e Hout Hrt.
    destruct (Hp1 pre c post e Hout Hrt) as [-> He]. split; [done|].
    congruence.
  - destruct (Hk a rt (st (m rt s h)) (tr (m rt s h))) as (out2 & Htr2 & Hp2).
    exists (out1 ++ out2). split.
    { rewrite Htr2, Htr1. by rewrite app_assoc. }
    intros pre c post e Hout Hrt.
    apply app_eq_inv in Hout as [(l & -> & Hout)|(l & -> & ->)].
    + destruct l as [|c0 l]; simplify_eq/=.
      * (* the raising call is the first one of the continuation *)
        rewrite app_nil_r in Htr1.
        apply (Hp2 [] c post e eq_refl).
        by rewrite Htr1, app_nil_r.
      * (* the raising call was issued by [m], which returned *)
        destruct (Hp1 pre c0 l e eq_refl Hrt) as [_ He]. congruence.
    + (* the raising call was issued later by the continuation *)
      apply (Hp2 l c post e eq_refl).
      by rewrite Htr1, <- app_assoc.
Qed.

Lemma propagates_for_each {A} (xs : list A) (body : A -> M S unit) :
  (forall x, Propagates (body x)) -> Propagates (for_each xs body).
Proof.
  intros Hb. induction xs as [|x xs IH]; cbn.
  - apply propagates_ret.
  - apply propagates_bind; auto.
Qed.
End Laws.

#[global] Hint Resolve frame_ret frame_raise frame_get frame_lift frame_call
  frame_bind frame_for_each : frame.
#[global] Hint Resolve propagates_ret propagates_raise propagates_get
  propagates_modify propagates_lift propagates_call propagates_bind
  propagates_for_each : propagates.

(** ** Straight-line sequences of calls *)

Section Issue.
Context {S : Type}.
Implicit Types (cs : list Call) (s : S) (h : list Call).

Lemma issue_st rt cs s h : st (issue cs rt s h) = s.
Proof.
  revert h. induction cs as [|c cs IH]; intros h; cbn; [done|].
  unfold bind, call. destruct (rt h c); cbn; [apply IH|done].
Qed.

Lemma issue_take rt cs s h :
  exists k, k <= length cs /\ tr (issue cs rt s h) = h ++ take k cs.
Proof.
  revert h. induction cs as [|c cs IH]; intros h; cbn.
  - exists 0. by rewrite app_nil_r.
  - unfold bind, call. destruct (rt h c); cbn.
    + destruct (IH (h ++ [c])) as (k & Hk & ->).
      exists (Datatypes.S k). split; [lia|]. by rewrite <- app_assoc.
    + exists 1. split; [lia|]. done.
Qed.

Lemma issue_ok rt cs s h :
  val (issue cs rt s h) = inr tt -> tr (issue cs rt s h) = h ++ cs.
Proof.
  revert h. induction cs as [|c cs IH]; intros h; cbn.
  - by rewrite app_nil_r.
  - unfold bind, call. destruct (rt h c); cbn; [|done].
    intros Hv. rewrite (IH _ Hv). by rewrite <- app_assoc.
Qed.

Lemma issue_app rt cs1 cs2 s h :
  issue (cs1 ++ cs2) rt s h = (issue cs1 ;;; issue cs2) rt s h.
Proof.
  revert h. induction cs1 as [|c cs1 IH]; intros h; cbn; [done|].
  unfold bind, call. destruct (rt h c); cbn; [|done].
  rewrite IH. reflexivity.
Qed.

Lemma issue_returns rt cs s h :
  (forall h' c, c ∈ cs -> exists v, rt h' c = Returns v) ->
  val (issue cs rt s h) = inr tt.
Proof.
  revert h. induction cs as [|c cs IH]; intros h Hrt; cbn; [done|].
  unfold bind, call.
  destruct (Hrt h c) as [v ->]; [left|]. cbn.
  apply IH. intros h' c' Hc'. apply Hrt. by right.
Qed.
(** When every call of the line returns, the whole line is issued. *)
Lemma issue_all_return rt cs s h :
  (forall j c, cs !! j = Some c -> exists v, rt (h ++ take j cs) c = Returns v) ->
  issue cs rt s h = mkRun s (h ++ cs) (inr tt).
Proof.
  revert h. induction cs as [|c cs IH]; intros h Hret; cbn [issue].
  - by rewrite app_nil_r.
  - destruct (Hret 0 c eq_refl) as [v Hv]. cbn in Hv. rewrite app_nil_r in Hv.
    unfold bind, call. rewrite Hv. cbn.
    rewrite (IH (h ++ [c])); [by rewrite <- app_assoc|].
    intros j c' Hc'. rewrite <- app_assoc. by apply (Hret (Datatypes.S j) c').
Qed.
End Issue.

(** ** The port registry *)

(** In a mapping (unique labels) every item is what its label looks up. *)
Lemma assoc_NoDup (ps : list (string * string)) (l i : string) :
  NoDup ps.*1 -> (l, i) ∈ ps -> assoc l ps = Some i.
Proof.
  induction ps as [|[l' i'] ps IH]; cbn; intros Hnd Hin.
  - by apply elem_of_nil in Hin.
  - apply NoDup_cons in Hnd as [Hl' Hnd].
    apply elem_of_cons in Hin as [Heq|Hin].
    + simplify_eq. by rewrite decide_True.
    + rewrite decide_False; [by apply IH|].
      intros ->. apply Hl'. apply list_elem_of_fmap. by exists (l', i).
Qed.

Lemma port_state_present rt self h portlbl iface state :
  assoc portlbl (ports self) = Some iface ->
  port_state portlbl state rt self h =
    (call (interface_command state (portlbl, iface)) ;;; ret tt) rt self h.
Proof.
  intros Hl. unfold port_state, bind at 1 2. cbn.
  unfold ports_getitem. rewrite Hl. reflexivity.
Qed.

(** Looping [port_state] over the labels of items of the registry issues
    their commands in order, as a straight line. *)
Lemma for_each_port_state rt self state (ps : list (string * string)) h :
  (forall l i, (l, i) ∈ ps -> assoc l (ports self) = Some i) ->
  for_each ps.*1 (fun portlbl => port_state portlbl state) rt self h =
    issue (interface_command state <$> ps) rt self h.
Proof.
  revert h. induction ps as [|[l i] ps IH]; intros h Hps; cbn; [done|].
  unfold bind at 1. rewrite (port_state_present _ _ _ l i); [|apply Hps; by left].
  unfold bind, call, interface_command at 1 2 3. cbn.
  destruct (rt h _); cbn; [|done].
  apply IH. intros l' i' Hin. apply Hps. by right.
Qed.

Lemma pause_issue rt self h :
  NoDup (ports self).*1 ->
  pause rt self h =
    issue ((interface_command false <$> ports self)
             ++ [Client_pause (container_id self)]) rt self h.
Proof.
  intros Hnd. rewrite issue_app. unfold pause, bind at 1 2 5. cbn.
  rewrite for_each_port_state by (intros; by apply assoc_NoDup).
  destruct (val (issue _ rt self h)); [done|].
  unfold bind at 1. cbn. by rewrite issue_st.
Qed.

Lemma unpause_issue rt self h :
  NoDup (ports self).*1 ->
  unpause rt self h =
    issue (Client_unpause (container_id self)
             :: (interface_command true <$> ports self)) rt self h.
Proof.
  intros Hnd. cbn. unfold unpause, bind, call. cbn.
  destruct (rt h _); cbn; [|done].
  rewrite for_each_port_state by (intros; by apply assoc_NoDup).
  by destruct (issue _ rt self _) as [s' h' [e|[]]].
Qed.

(** When the collaborators return, so do [pause] and [unpause]. *)
Lemma pause_returns rt self h :
  NoDup (ports self).*1 ->
  (forall h' c, exists v, rt h' c = Returns v) ->
  val (pause rt self h) = inr tt.
Proof. intros Hnd Hrt. rewrite pause_issue by done. by apply issue_returns. Qed.

Lemma unpause_returns rt self h :
  NoDup (ports self).*1 ->
  (forall h' c, exists v, rt h' c = Returns v) ->
  val (unpause rt self h) = inr tt.
Proof. intros Hnd Hrt. rewrite unpause_issue by done. by apply issue_returns. Qed.

(** ** Frames of the operations *)

Lemma notify_add_biport_frame {B} (f : DockerNode -> B) node biport :
  Frame f (notify_add_biport node biport).
Proof. apply frame_ret. Qed.

Lemma notify_add_bilink_frame {B} (f : DockerNode -> B) nodeport bilink :
  Frame f (notify_add_bilink nodeport bilink).
Proof. apply frame_ret. Qed.

Lemma notify_post_build_frame {B} (f : DockerNode -> B) : Frame f notify_post_build.
Proof. apply frame_ret. Qed.

Lemma port_state_frame {B} (f : DockerNode -> B) portlbl state :
  Frame f (port_state portlbl state).
Proof. unfold port_state. eauto 10 with frame. Qed.

Lemma stop_frame {B} (f : DockerNode -> B) : Frame f stop.
Proof. unfold stop. eauto 20 with frame. Qed.

Lemma pause_frame {B} (f : DockerNode -> B) : Frame f pause.
Proof. unfold pause. eauto 20 using port_state_frame with frame. Qed.

Lemma unpause_frame {B} (f : DockerNode -> B) : Frame f unpause.
Proof. unfold unpause. eauto 20 using port_state_frame with frame. Qed.

(** [start] assigns [_pid] and nothing else. *)
Lemma start_frame {B} (f : DockerNode -> B) :
  (forall pid self, f (set_pid pid self) = f self) -> Frame f start.
Proof. intros Hf. unfold start. eauto 20 using frame_modify with frame. Qed.

(** ** Failures of the collaborators travel through the operations *)

Lemma init_propagates identifier image command binds network_mode self_id :
  Propagates (__init__ identifier image command binds network_mode self_id).
Proof. unfold __init__. cbn zeta. eauto 20 with propagates. Qed.

Lemma start_propagates : Propagates start.
Proof. unfold start. eauto 20 with propagates. Qed.

Lemma stop_propagates : Propagates stop.
Proof. unfold stop. eauto 20 with propagates. Qed.

Lemma port_state_propagates portlbl state : Propagates (port_state portlbl state).
Proof. unfold port_state. eauto 20 with propagates. Qed.

Lemma pause_propagates : Propagates pause.
Proof. unfold pause. eauto 20 using port_state_propagates with propagates. Qed.

Lemma unpause_propagates : Propagates unpause.
Proof. unfold unpause. eauto 20 using port_state_propagates with propagates. Qed.

(** ** Interface naming *)

(** C1. [notify_add_biport] returns the string stored under the key
    ['label'] of the biport's metadata when that key is present and the
    biport's identifier otherwise; in both cases the node object is left as
    it was and no call is issued. *)
Theorem notify_add_biport_returns_label_or_identifier
    (rt : Runtime) (self : DockerNode) (h : list Call)
    (node : value) (biport : BidirectionalPort) :
  notify_add_biport node biport rt self h =
    mkRun self h
      (inr match biport_metadata biport !! "label" with
           | Some label => label
           | None => biport_identifier biport
           end).
Proof.
  unfold notify_add_biport, ret.
  by destruct (biport_metadata biport !! "label").
Qed.

Example notify_add_biport_labelled :
  val (notify_add_biport VNone (mkBiport "p1" {["label" := "eth1"]}) rt_ok n1 [])
  = inr "eth1".
Proof. reflexivity. Qed.

Example notify_add_biport_unlabelled :
  val (notify_add_biport VNone (mkBiport "p1" {["speed" := "1G"]}) rt_ok n1 [])
  = inr "p1".
Proof. reflexivity. Qed.

(** ** Stopping *)

(** C2. [stop] issues [stop], [wait] and [remove_container] on the
    container id, in that order and nothing else, and gives up at the first
    of them that raises: when [stop] raises neither [wait] nor
    [remove_container] is attempted, when [wait] raises
    [remove_container] is not attempted; the exception is the result. *)
Theorem stop_issues_stop_wait_remove
    (rt : Runtime) (self : DockerNode) (h : list Call) :
  let cid := container_id self in
  let r := stop rt self h in
  st r = self /\
  match rt h (Client_stop cid) with
  | Raises e => tr r = h ++ [Client_stop cid] /\ val r = inl e
  | Returns _ =>
      match rt (h ++ [Client_stop cid]) (Client_wait cid) with
      | Raises e => tr r = h ++ [Client_stop cid; Client_wait cid] /\ val r = inl e
      | Returns _ =>
          tr r = h ++ [Client_stop cid; Client_wait cid; Client_remove_container cid] /\
          match rt (h ++ [Client_stop cid; Client_wait cid])
                  (Client_remove_container cid) with
          | Raises e => val r = inl e
          | Returns _ => val r = inr tt
          end
      end
  end.
Proof.
  cbn zeta. split; [apply (stop_frame id)|].
  unfold stop, bind, call. cbn.
  destruct (rt h _); cbn; [|done].
  destruct (rt (h ++ [_]) _); cbn; [|by rewrite <- app_assoc].
  rewrite <- !app_assoc. cbn.
  by destruct (rt (h ++ [_; _]) _).
Qed.

Example stop_wait_fails :
  stop rt_wait_fails n1 [] =
    mkRun n1 [Client_stop (VStr "c0ffee"); Client_wait (VStr "c0ffee")]
      (inl (APIError "wait")).
Proof. reflexivity. Qed.

(** ** Port state *)

(** C5. For a label of the registry, [port_state] runs exactly one
    command in the node, through bash: [ip link set dev <iface> up] when
    the state is true and [ip link set dev <iface> down] when it is false,
    [<iface>] being the interface the label maps to.  For a label that is
    not in the registry it raises the lookup error of the label and no
    command is issued.  The node object is left as it was. *)
Theorem port_state_sets_interface
    (rt : Runtime) (self : DockerNode) (h : list Call)
    (portlbl : string) (state : bool) :
  let r := port_state portlbl state rt self h in
  st r = self /\
  match assoc portlbl (ports self) with
  | Some iface =>
      let command :=
        Node_call ("ip link set dev " +:+ iface +:+ " "
                     +:+ (if state then "up" else "down")) "bash" in
      tr r = h ++ [command] /\
      val r = match rt h command with
              | Returns _ => inr tt
              | Raises e => inl e
              end
  | None => tr r = h /\ val r = inl (KeyError portlbl)
  end.
Proof.
  cbn zeta. split; [apply (port_state_frame id)|].
  destruct (assoc portlbl (ports self)) as [iface|] eqn:Hl.
  - rewrite (port_state_present _ _ _ _ iface) by done.
    unfold bind, call, interface_command, ip_link_set. cbn.
    by destruct (rt h _).
  - unfold port_state, bind, ports_getitem. cbn. by rewrite Hl.
Qed.

Example port_state_down :
  tr (port_state "p1" false rt_ok n1 []) = [Node_call "ip link set dev eth1 down" "bash"].
Proof. reflexivity. Qed.

Example port_state_unknown :
  port_state "p9" true rt_ok n1 [] = mkRun n1 [] (inl (KeyError "p9")).
Proof. reflexivity. Qed.

(** ** Pausing and unpausing *)

(** The command of an item sits in the sequence of commands where the
    item's label sits in the iteration order of the registry. *)
Lemma interface_command_at (state : bool) (ps : list (string * string))
    (i : nat) (portlbl : string) :
  NoDup ps.*1 ->
  ps.*1 !! i = Some portlbl ->
  exists iface,
    assoc portlbl ps = Some iface /\
    (interface_command state <$> ps) !! i
      = Some (interface_command state (portlbl, iface)).
Proof.
  intros Hnd Hi. rewrite list_lookup_fmap in Hi.
  destruct (ps !! i) as [[l iface]|] eqn:Hps; simplify_eq/=.
  exists iface. split.
  - apply assoc_NoDup; [done|]. by eapply list_elem_of_lookup_2.
  - by rewrite list_lookup_fmap, Hps.
Qed.

(** C3. With N ports in the registry, when the interface commands
    return, [pause] issues exactly N interface-down commands, one per port
    label and in the iteration order of the registry, each for the
    interface its label maps to, and after all of them the one [pause] call
    on the container id; its result is what the [pause] call answers and
    the node is left as it was. *)
Theorem pause_downs_ports_then_pauses
    (rt : Runtime) (self : DockerNode) (h : list Call) :
  NoDup (ports self).*1 ->
  let down := fun item : string * string =>
    Node_call ("ip link set dev " +:+ item.2 +:+ " down") "bash" in
  let downs := down <$> ports self in
  let pause_call := Client_pause (container_id self) in
  (forall j c, downs !! j = Some c ->
     exists v, rt (h ++ take j downs) c = Returns v) ->
  pause rt self h =
    mkRun self (h ++ downs ++ [pause_call])
      match rt (h ++ downs) pause_call with
      | Returns _ => inr tt
      | Raises e => inl e
      end /\
  length downs = length (ports self) /\
  (forall i portlbl,
     (ports self).*1 !! i = Some portlbl ->
     exists iface,
       assoc portlbl (ports self) = Some iface /\
       downs !! i = Some (down (portlbl, iface))).
Proof.
  intros Hnd. cbn zeta.
  change (fun item : string * string => Node_call _ _)
    with (interface_command false).
  intros Hret.
  split; [|split; [apply length_fmap|intros i portlbl; by apply interface_command_at]].
  rewrite pause_issue, issue_app by done.
  unfold bind at 1. rewrite (issue_all_return rt _ self h Hret). cbn [st tr val].
  cbn [issue]. unfold bind, call.
  destruct (rt (h ++ _) _); cbn; by rewrite <- app_assoc.
Qed.

Lemma pause_downs_ports_then_pauses_witness :
  NoDup (ports n1).*1 /\
  pause rt_ok n1 [] =
    mkRun n1
      [Node_call "ip link set dev eth1 down" "bash";
       Node_call "ip link set dev eth2 down" "bash";
       Client_pause (VStr "c0ffee")]
      (inr tt).
Proof.
  assert (Hnd : NoDup (ports n1).*1)
    by (apply (bool_decide_unpack _); vm_compute; exact I).
  split; [exact Hnd|].
  refine (proj1 (pause_downs_ports_then_pauses rt_ok n1 [] Hnd _)).
  intros j c _. destruct c; eexists; reflexivity.
Defined.

(** A shell command that raises ends [pause] before the [pause] call. *)
Example pause_shell_fails :
  pause rt_shell_fails n1 [] =
    mkRun n1 [Node_call "ip link set dev eth1 down" "bash"] (inl (APIError "exec")).
Proof. reflexivity. Qed.

(** C4. With N ports in the registry, [unpause] first issues the one
    [unpause] call on the container id; no interface command comes before
    it, and when it raises none is issued at all.  When it returns and the
    interface commands return, [unpause] then issues exactly N interface-up
    commands, one per port label in the iteration order of the registry,
    each for the interface its label maps to, and returns; the node is left
    as it was. *)
Theorem unpause_unpauses_then_ups_ports
    (rt : Runtime) (self : DockerNode) (h : list Call) :
  NoDup (ports self).*1 ->
  let up := fun item : string * string =>
    Node_call ("ip link set dev " +:+ item.2 +:+ " up") "bash" in
  let ups := up <$> ports self in
  let unpause_call := Client_unpause (container_id self) in
  (forall j c, ups !! j = Some c ->
     exists v, rt (h ++ unpause_call :: take j ups) c = Returns v) ->
  unpause rt self h =
    match rt h unpause_call with
    | Returns _ => mkRun self (h ++ unpause_call :: ups) (inr tt)
    | Raises e => mkRun self (h ++ [unpause_call]) (inl e)
    end /\
  length ups = length (ports self) /\
  (forall i portlbl,
     (ports self).*1 !! i = Some portlbl ->
     exists iface,
       assoc portlbl (ports self) = Some iface /\
       ups !! i = Some (up (portlbl, iface))).
Proof.
  intros Hnd. cbn zeta.
  change (fun item : string * string => Node_call _ _)
    with (interface_command true).
  intros Hret.
  split; [|split; [apply length_fmap|intros i portlbl; by apply interface_command_at]].
  rewrite unpause_issue by done. cbn [issue]. unfold bind, call.
  destruct (rt h _); cbn [st tr val]; [|done].
  rewrite issue_all_return; [by rewrite <- app_assoc|].
  intros j c Hc. rewrite <- app_assoc. by apply Hret.
Qed.

Lemma unpause_unpauses_then_ups_ports_witness :
  NoDup (ports n1).*1 /\
  unpause rt_ok n1 [] =
    mkRun n1
      [Client_unpause (VStr "c0ffee");
       Node_call "ip link set dev eth1 up" "bash";
       Node_call "ip link set dev eth2 up" "bash"]
      (inr tt).
Proof.
  assert (Hnd : NoDup (ports n1).*1)
    by (apply (bool_decide_unpack _); vm_compute; exact I).
  split; [exact Hnd|].
  refine (proj1 (unpause_unpauses_then_ups_ports rt_ok n1 [] Hnd _)).
  intros j c _. destruct c; eexists; reflexivity.
Defined.

(** ** Starting *)

(** C6. When [start] returns, it has issued the start request and then
    the inspect query on the container id, and [_pid] is the process id
    found under ['State']['Pid'] of what the inspect query returned; the
    rest of the node object is as before. *)
Theorem start_records_reported_pid
    (rt : Runtime) (self : DockerNode) (h : list Call) :
  val (start rt self h) = inr tt ->
  let cid := container_id self in
  let r := start rt self h in
  tr r = h ++ [Client_start cid; Client_inspect_container cid] /\
  exists inspected state,
    rt (h ++ [Client_start cid]) (Client_inspect_container cid) = Returns inspected /\
    getitem inspected "State" = inr state /\
    getitem state "Pid" = inr (_pid (st r)) /\
    st r = set_pid (_pid (st r)) self.
Proof.
  cbn zeta. unfold start, bind, call. cbn.
  destruct (rt h _); cbn; [|done].
  destruct (rt (h ++ [_]) _) as [inspected|]; cbn; [|done].
  destruct (getitem inspected "State") as [|state] eqn:Hstate; cbn; [done|].
  destruct (getitem state "Pid") as [|pid] eqn:Hpid; cbn; [done|].
  intros _. split; [by rewrite <- app_assoc|].
  by exists inspected, state.
Qed.

Lemma start_records_reported_pid_witness :
  val (start rt_ok n1 []) = inr tt /\
  tr (start rt_ok n1 []) =
    [Client_start (VStr "c0ffee"); Client_inspect_container (VStr "c0ffee")] /\
  _pid (st (start rt_ok n1 [])) = VInt 4242.
Proof.
  split; [reflexivity|].
  destruct (start_records_reported_pid rt_ok n1 [] eq_refl)
    as (Htr & inspected & state & _ & _ & _ & _).
  split; [exact Htr|reflexivity].
Defined.

(** ** Construction *)

(** C7. Construction creates the client, asks it for a host
    configuration with privileged mode and the given network mode and bind
    mounts, then asks for the creation of a detached container with a TTY,
    running the given command on the given image with that host
    configuration, under the name [<identifier>_<id>] where [<id>] is the
    decimal writing of the identity of the object: two objects built for
    the same identifier get different names.  When these calls return and
    the creation response has an ['Id'], construction returns the node
    whose [container_id] is that ['Id'], after exactly these three calls.
    Whatever the collaborators do, construction issues no start call. *)
Theorem construction_creates_without_starting
    (rt : Runtime) (h : list Call)
    (ident image command : string) (binds : value)
    (network_mode : string) (self_id : Z) :
  let r := __init__ ident image command binds network_mode self_id rt tt h in
  let name := ident +:+ "_" +:+ pretty self_id in
  let configure := Client_create_host_config true network_mode binds in
  (exists out,
     tr r = h ++ out /\ Forall (fun c => is_client_start c = false) out) /\
  (forall other_id : Z,
     ident +:+ "_" +:+ pretty other_id = name -> other_id = self_id) /\
  (forall client host_config created cid,
     let create :=
       Client_create_container image command name true true host_config in
     rt h Client_init = Returns client ->
     rt (h ++ [Client_init]) configure = Returns host_config ->
     rt (h ++ [Client_init; configure]) create = Returns created ->
     getitem created "Id" = inr cid ->
     r = mkRun tt (h ++ [Client_init; configure; create])
           (inr {| identifier := ident;
                   ports := [];
                   _pid := VNone;
                   _image := image;
                   _command := command;
                   _client := client;
                   _host_config := host_config;
                   container_id := cid |})).
Proof.
  cbn zeta. split; [|split].
  - unfold __init__, bind, call, container_name. cbn.
    destruct (rt h _); cbn; [|by eexists [_]; repeat constructor].
    destruct (rt (h ++ [_]) _) as [hc|]; cbn;
      [|rewrite <- app_assoc; by eexists [_; _]; repeat constructor].
    destruct (rt ((h ++ [_]) ++ [_]) _) as [created|]; cbn;
      [|rewrite <- !app_assoc; by eexists [_; _; _]; repeat constructor].
    rewrite <- !app_assoc.
    destruct (getitem created "Id"); cbn;
      by eexists [_; _; _]; repeat constructor.
  - intros other_id Hname.
    apply (inj (String.app ident)), (inj (String.app "_")) in Hname.
    by apply (inj pretty).
  - intros client hc created cid H1 H2 H3 H4.
    unfold __init__, bind, call, container_name. cbn. rewrite H1. cbn.
    rewrite H2. cbn. rewrite <- app_assoc. cbn. rewrite H3. cbn.
    rewrite H4. cbn. by rewrite <- app_assoc.
Qed.

Lemma construction_creates_without_starting_witness :
  __init__ "n1" default_image default_command default_binds
    default_network_mode 140234 rt_ok tt [] =
    mkRun tt
      [Client_init;
       Client_create_host_config true "none" VNone;
       Client_create_container "ubuntu" "bash" "n1_140234" true true VNone]
      (inr {| identifier := "n1";
              ports := [];
              _pid := VNone;
              _image := "ubuntu";
              _command := "bash";
              _client := VNone;
              _host_config := VNone;
              container_id := VStr "c0ffee" |}).
Proof.
  destruct (construction_creates_without_starting rt_ok [] "n1" default_image
              default_command default_binds default_network_mode 140234)
    as (_ & _ & Hrun).
  exact (Hrun VNone VNone (VDict [("Id", VStr "c0ffee")]) (VStr "c0ffee")
           eq_refl eq_refl eq_refl eq_refl).
Defined.

(** ** Failures *)

(** C8. No operation catches or translates a failure of the docker client
    or of the shell command: in construction, [start], [stop], [pause],
    [unpause] and [port_state], a call that raises is the last call the
    operation issues and its exception is the result of the operation,
    unchanged.  The node object is then as the steps before left it: the
    operations other than [start] never assign to it, and a [start] that
    raises has not assigned to it. *)
Theorem collaborator_failures_propagate :
  (forall ident image command binds network_mode self_id,
     Propagates (__init__ ident image command binds network_mode self_id)) /\
  Propagates start /\
  Propagates stop /\
  Propagates pause /\
  Propagates unpause /\
  (forall portlbl state, Propagates (port_state portlbl state)) /\
  (forall rt self h,
     st (stop rt self h) = self /\
     st (pause rt self h) = self /\
     st (unpause rt self h) = self /\
     (forall portlbl state, st (port_state portlbl state rt self h) = self) /\
     (forall e, val (start rt self h) = inl e -> st (start rt self h) = self)).
Proof.
  split; [apply init_propagates|].
  split; [apply start_propagates|].
  split; [apply stop_propagates|].
  split; [apply pause_propagates|].
  split; [apply unpause_propagates|].
  split; [apply port_state_propagates|].
  intros rt self h.
  split; [apply (stop_frame id)|].
  split; [apply (pause_frame id)|].
  split; [apply (unpause_frame id)|].
  split; [intros; apply (port_state_frame id)|].
  intros e. unfold start, bind, call. cbn.
  destruct (rt h _); cbn; [|done].
  destruct (rt (h ++ [_]) _) as [inspected|]; cbn; [|done].
  destruct (getitem inspected "State") as [|state]; cbn; [done|].
  by destruct (getitem state "Pid").
Qed.

Lemma collaborator_failures_propagate_witness :
  rt_wait_fails [Client_stop (VStr "c0ffee")] (Client_wait (VStr "c0ffee"))
    = Raises (APIError "wait") /\
  val (stop rt_wait_fails n1 []) = inl (APIError "wait").
Proof.
  split; [reflexivity|].
  destruct collaborator_failures_propagate as (_ & _ & Hstop & _).
  destruct (Hstop rt_wait_fails n1 []) as (out & Htr & Hp).
  cbn in Htr. subst out.
  exact (proj2 (Hp [Client_stop (VStr "c0ffee")] (Client_wait (VStr "c0ffee")) []
                  (APIError "wait") eq_refl eq_refl)).
Defined.

(** ** What the operations leave alone *)

Lemma construction_fields_set_pid pid self :
  construction_fields (set_pid pid self) = construction_fields self.
Proof. reflexivity. Qed.

(** C9. [container_id] is assigned during construction, from the creation
    response, together with the image, the command and the host
    configuration; [start], [stop], [pause], [unpause], [port_state] and
    the notification hooks leave all four as they were, whether they return
    or raise. *)
Theorem construction_fields_never_reassigned
    (rt : Runtime) (self : DockerNode) (h : list Call) :
  let kept := fun s : DockerNode => construction_fields s = construction_fields self in
  kept (st (start rt self h)) /\
  kept (st (stop rt self h)) /\
  kept (st (pause rt self h)) /\
  kept (st (unpause rt self h)) /\
  (forall portlbl state, kept (st (port_state portlbl state rt self h))) /\
  (forall node biport, kept (st (notify_add_biport node biport rt self h))) /\
  (forall nodeport bilink, kept (st (notify_add_bilink nodeport bilink rt self h))) /\
  kept (st (notify_post_build rt self h)) /\
  (forall ident image command binds network_mode self_id h0,
     match val (__init__ ident image command binds network_mode self_id rt tt h0) with
     | inr node =>
         _image node = image /\ _command node = command /\
         exists created host_config,
           rt (h0 ++ [Client_init; Client_create_host_config true network_mode binds])
              (Client_create_container image command
                 (container_name ident self_id) true true host_config)
             = Returns created /\
           _host_config node = host_config /\
           getitem created "Id" = inr (container_id node)
     | inl _ => True
     end).
Proof.
  cbn zeta.
  split; [apply start_frame, construction_fields_set_pid|].
  split; [apply stop_frame|].
  split; [apply pause_frame|].
  split; [apply unpause_frame|].
  split; [intros; apply port_state_frame|].
  do 2 (split; [done|]). split; [done|].
  intros ident image command binds network_mode self_id h0.
  unfold __init__, bind, call. cbn.
  destruct (rt h0 _); cbn; [|done].
  destruct (rt (h0 ++ [_]) _) as [hc|]; cbn; [|done].
  destruct (rt ((h0 ++ [_]) ++ [_]) _) as [created|] eqn:Hc; cbn; [|done].
  destruct (getitem created "Id") as [|cid] eqn:Hid; cbn; [done|].
  rewrite <- app_assoc in Hc. by eauto 10.
Qed.

(** C10. [stop] leaves [_pid] as it was, whether it returns or raises, and
    so do [pause], [unpause], [port_state] and the notification hooks:
    after [start] and then [stop], [_pid] is what [start] left.
    Construction sets [_pid] to [None]; after that only [start] assigns
    it, when it returns, to the process id of the inspect response, and a
    [start] that raises leaves it as it was. *)
Theorem only_start_writes_pid
    (rt : Runtime) (self : DockerNode) (h : list Call) :
  _pid (st (stop rt self h)) = _pid self /\
  _pid (st ((start ;;; stop) rt self h)) = _pid (st (start rt self h)) /\
  _pid (st (pause rt self h)) = _pid self /\
  _pid (st (unpause rt self h)) = _pid self /\
  (forall portlbl state, _pid (st (port_state portlbl state rt self h)) = _pid self) /\
  (forall node biport, _pid (st (notify_add_biport node biport rt self h)) = _pid self) /\
  (forall nodeport bilink,
     _pid (st (notify_add_bilink nodeport bilink rt self h)) = _pid self) /\
  _pid (st (notify_post_build rt self h)) = _pid self /\
  match val (start rt self h) with
  | inr _ =>
      exists inspected state,
        rt (h ++ [Client_start (container_id self)])
           (Client_inspect_container (container_id self)) = Returns inspected /\
        getitem inspected "State" = inr state /\
        getitem state "Pid" = inr (_pid (st (start rt self h)))
  | inl _ => _pid (st (start rt self h)) = _pid self
  end /\
  (forall ident image command binds network_mode self_id h0,
     match val (__init__ ident image command binds network_mode self_id rt tt h0) with
     | inr node => _pid node = VNone
     | inl _ => True
     end).
Proof.
  split; [apply stop_frame|].
  split.
  { unfold bind. destruct (val (start rt self h)); cbn; [done|apply stop_frame]. }
  split; [apply pause_frame|].
  split; [apply unpause_frame|].
  split; [intros; apply port_state_frame|].
  do 2 (split; [done|]). split; [done|].
  split.
  - unfold start, bind, call. cbn.
    destruct (rt h _); cbn; [|done].
    destruct (rt (h ++ [_]) _) as [inspected|]; cbn; [|done].
    destruct (getitem inspected "State") as [|state] eqn:Hstate; cbn; [done|].
    destruct (getitem state "Pid") as [|pid] eqn:Hpid; cbn; [done|].
    by exists inspected, state.
  - intros ident image command binds network_mode self_id h0.
    unfold __init__, bind, call. cbn.
    destruct (rt h0 _); cbn; [|done].
    destruct (rt (h0 ++ [_]) _) as [hc|]; cbn; [|done].
    destruct (rt ((h0 ++ [_]) ++ [_]) _) as [created|]; cbn; [|done].
    by destruct (getitem created "Id").
Qed.

Example start_writes_pid :
  _pid n1 = VNone /\ _pid (st (start rt_ok n1 [])) = VInt 4242.
Proof. split; reflexivity. Qed.

Example stop_after_start_keeps_pid :
  _pid (st ((start ;;; stop) rt_wait_fails n1 [])) = VInt 4242.
Proof. reflexivity. Qed.

(** ** Container names *)

Lemma string_app_nil_l (s : string) : "" +:+ s = s.
Proof. reflexivity. Qed.

Lemma string_app_cons (c : ascii) (r s : string) :
  String c r +:+ s = String c (r +:+ s).
Proof. reflexivity. Qed.

Lemma underscore_free_app_underscore (r p : string) :
  underscore_free (r +:+ String "_"%char p) = false.
Proof.
  induction r as [|c r IH]; [done|].
  rewrite string_app_cons. cbn. by destruct (decide (c = "_"%char)).
Qed.

Lemma underscore_free_pretty_N_go (x : N) (s : string) :
  underscore_free s = true -> underscore_free (pretty_N_go x s) = true.
Proof.
  revert s. induction (N.lt_wf_0 x) as [x _ IH]; intros s Hs.
  assert (x = 0 \/ 0 < x)%N as [->|Hx] by lia; [by rewrite pretty_N_go_0|].
  rewrite pretty_N_go_step by done.
  apply IH; [by apply N.div_lt|].
  cbn. unfold pretty_N_char. by repeat case_match.
Qed.

(** The decimal writing of an integer has no underscore. *)
Lemma underscore_free_pretty (z : Z) : underscore_free (pretty z) = true.
Proof.
  assert (forall p : positive, underscore_free (pretty p) = true) as Hpos.
  { intros p. unfold pretty, pretty_positive, pretty, pretty_N.
    rewrite decide_False by done. by apply underscore_free_pretty_N_go. }
  destruct z as [|p|p]; [done|apply Hpos|].
  change (pretty (Z.neg p)) with ("-" +:+ pretty p). cbn. apply Hpos.
Qed.

(** A name splits at its last underscore. *)
Lemma split_at_last_underscore (i1 i2 p1 p2 : string) :
  underscore_free p1 = true -> underscore_free p2 = true ->
  i1 +:+ "_" +:+ p1 = i2 +:+ "_" +:+ p2 ->
  i1 = i2 /\ p1 = p2.
Proof.
  intros Hp1 Hp2. revert i2.
  induction i1 as [|c i1 IH]; intros [|c' i2] Heq;
    repeat rewrite ?string_app_nil_l, ?string_app_cons in Heq; simplify_eq.
  - done.
  - by rewrite underscore_free_app_underscore in Hp1.
  - by rewrite underscore_free_app_underscore in Hp2.
  - by destruct (IH i2) as [-> ->].
Qed.

(** X1. Container names never collide: two names are the same only for
    the same identifier and the same object identity, also when the
    identifiers themselves contain underscores or digits. *)
Theorem container_name_inj (ident1 ident2 : string) (id1 id2 : Z) :
  container_name ident1 id1 = container_name ident2 id2 ->
  ident1 = ident2 /\ id1 = id2.
Proof.
  intros Heq.
  apply split_at_last_underscore in Heq as [-> Hp];
    [|apply underscore_free_pretty..].
  split; [done|]. by apply (inj pretty).
Qed.

Lemma container_name_inj_witness :
  container_name "sw_1" 42 = container_name ("sw" +:+ "_1") (40 + 2) /\
  ("sw_1" = "sw" +:+ "_1" /\ (42 = 40 + 2)%Z).
Proof.
  split; [reflexivity|].
  exact (container_name_inj "sw_1" ("sw" +:+ "_1") 42 (40 + 2) eq_refl).
Defined.

(** An identifier that ends like a name does not make names collide. *)
Example container_name_distinct :
  container_name "sw_1" 2 <> container_name "sw" 12 /\
  container_name "sw" 12 <> container_name "sw1" 2.
Proof. apply (bool_decide_unpack _). vm_compute. exact I. Qed.

(** ** Responses that lack what the node reads from them *)

(** The failure of a subscript by a string key is the lookup error of that
    key on a dict and a type error on anything else. *)
Lemma getitem_error (d : value) (k : string) (e : Exc) :
  getitem d k = inl e -> e = KeyError k \/ e = TypeError.
Proof.
  destruct d as [| | | | |entries]; cbn; try (intros [= <-]; by right).
  destruct (assoc k entries); [done|]. intros [= <-]. by left.
Qed.

(** X2. When the creation response cannot be subscripted by ['Id'],
    construction raises that lookup failure, the lookup error of ['Id'] or
    a type error, and returns no node, although the creation request was
    issued and answered: the three calls were made and nothing is issued
    to undo them. *)
Theorem construction_without_id
    (rt : Runtime) (h : list Call)
    (ident image command : string) (binds : value)
    (network_mode : string) (self_id : Z)
    (client host_config created : value) (e : Exc) :
  let configure := Client_create_host_config true network_mode binds in
  let create :=
    Client_create_container image command (container_name ident self_id)
      true true host_config in
  rt h Client_init = Returns client ->
  rt (h ++ [Client_init]) configure = Returns host_config ->
  rt (h ++ [Client_init; configure]) create = Returns created ->
  getitem created "Id" = inl e ->
  __init__ ident image command binds network_mode self_id rt tt h
    = mkRun tt (h ++ [Client_init; configure; create]) (inl e) /\
  (e = KeyError "Id" \/ e = TypeError).
Proof.
  cbn zeta. intros H1 H2 H3 H4. split; [|by eapply getitem_error].
  unfold __init__, bind, call. cbn. rewrite H1. cbn. rewrite H2. cbn.
  rewrite <- app_assoc. cbn. rewrite H3. cbn. rewrite H4. cbn.
  by rewrite <- app_assoc.
Qed.

Lemma construction_without_id_witness :
  __init__ "n1" default_image default_command default_binds
    default_network_mode 140234 rt_no_id tt []
  = mkRun tt
      [Client_init;
       Client_create_host_config true "none" VNone;
       Client_create_container "ubuntu" "bash" "n1_140234" true true VNone]
      (inl (KeyError "Id")).
Proof.
  exact (proj1 (construction_without_id rt_no_id [] "n1" default_image
                  default_command default_binds default_network_mode 140234
                  VNone VNone (VDict [("Warnings", VNone)]) (KeyError "Id")
                  eq_refl eq_refl eq_refl eq_refl)).
Defined.

(** X3. When the inspect response cannot be subscripted by ['State'] and
    then ['Pid'], [start] raises that lookup failure after the container was
    started and inspected, and the node, [_pid] included, is as before. *)
Theorem start_without_pid
    (rt : Runtime) (self : DockerNode) (h : list Call)
    (started inspected : value) (e : Exc) :
  let cid := container_id self in
  rt h (Client_start cid) = Returns started ->
  rt (h ++ [Client_start cid]) (Client_inspect_container cid) = Returns inspected ->
  match getitem inspected "State" with
  | inr state => getitem state "Pid" = inl e
  | inl e' => e' = e
  end ->
  start rt self h
    = mkRun self (h ++ [Client_start cid; Client_inspect_container cid]) (inl e).
Proof.
  cbn zeta. intros H1 H2 H3.
  unfold start, bind, call. cbn. rewrite H1. cbn. rewrite H2. cbn.
  rewrite <- app_assoc. cbn.
  destruct (getitem inspected "State") as [e'|state]; cbn; [by subst|].
  by rewrite H3.
Qed.

Lemma start_without_pid_witness :
  start rt_no_pid n1 []
  = mkRun n1
      [Client_start (VStr "c0ffee"); Client_inspect_container (VStr "c0ffee")]
      (inl (KeyError "Pid")).
Proof.
  exact (start_without_pid rt_no_pid n1 [] VNone (VDict [("State", VDict [])])
           (KeyError "Pid") eq_refl eq_refl eq_refl).
Defined.

(** ** Failures while pausing and unpausing *)

(** A straight line stops at the first call that raises: the calls before
    it were issued and returned, the calls after it are not issued. *)
Lemma issue_first_failure {S : Type} (rt : Runtime) (cs : list Call) (s : S)
    (h : list Call) (i : nat) (c : Call) (e : Exc) :
  cs !! i = Some c ->
  (forall j c', j < i -> cs !! j = Some c' ->
     exists v, rt (h ++ take j cs) c' = Returns v) ->
  rt (h ++ take i cs) c = Raises e ->
  issue cs rt s h = mkRun s (h ++ take (Datatypes.S i) cs) (inl e).
Proof.
  revert h i. induction cs as [|c0 cs IH]; intros h i Hi Hbefore Hraise; [done|].
  cbn [issue]. unfold bind, call. destruct i as [|i]; simplify_eq/=.
  - rewrite app_nil_r in Hraise. by rewrite Hraise, take_0.
  - destruct (Hbefore 0 c0) as [v Hv]; [lia|done|].
    cbn in Hv. rewrite app_nil_r in Hv. rewrite Hv. cbn.
    rewrite (IH (h ++ [c0]) i); [by rewrite <- app_assoc|done| |].
    + intros j c' Hj Hc'. rewrite <- app_assoc.
      apply (Hbefore (Datatypes.S j) c'); [lia|done].
    + by rewrite <- app_assoc.
Qed.

(** The interface commands are shell commands, not docker calls. *)
Lemma pause_call_not_interface_command (cid : value) (state : bool)
    (ps : list (string * string)) (k : nat) :
  Client_pause cid ∉ take k (interface_command state <$> ps).
Proof.
  intros (i & Hi & _)%elem_of_take.
  rewrite list_lookup_fmap in Hi. by destruct (ps !! i).
Qed.

(** X4. [pause] stops at the first call that raises, whichever it is.  If
    the calls before position [i] of the sequence (the N interface-down
    commands, then the [pause] call) return and the call at position [i]
    raises, then exactly the first [i + 1] calls are issued and the
    exception is the result: interfaces already brought down are not
    brought back up, the later ones are not touched, and when [i < N] the
    container is not paused. *)
Theorem pause_stops_at_first_failure
    (rt : Runtime) (self : DockerNode) (h : list Call)
    (i : nat) (c : Call) (e : Exc) :
  NoDup (ports self).*1 ->
  let sequence :=
    (interface_command false <$> ports self) ++ [Client_pause (container_id self)] in
  sequence !! i = Some c ->
  (forall j c', j < i -> sequence !! j = Some c' ->
     exists v, rt (h ++ take j sequence) c' = Returns v) ->
  rt (h ++ take i sequence) c = Raises e ->
  pause rt self h = mkRun self (h ++ take (Datatypes.S i) sequence) (inl e) /\
  (i < length (ports self) ->
   Client_pause (container_id self) ∉ take (Datatypes.S i) sequence).
Proof.
  intros Hnd sequence Hi Hbefore Hraise. split.
  - rewrite pause_issue by done. by eapply issue_first_failure.
  - intros Hlt. unfold sequence.
    rewrite take_app_le by (rewrite length_fmap; lia).
    apply pause_call_not_interface_command.
Qed.

Lemma pause_stops_at_first_failure_witness :
  pause rt_shell_fails n1 []
  = mkRun n1 [Node_call "ip link set dev eth1 down" "bash"] (inl (APIError "exec")).
Proof.
  assert (Hnd : NoDup (ports n1).*1)
    by (apply (bool_decide_unpack _); vm_compute; exact I).
  refine (proj1 (pause_stops_at_first_failure rt_shell_fails n1 [] 0
                   (Node_call "ip link set dev eth1 down" "bash")
                   (APIError "exec") Hnd eq_refl _ eq_refl)).
  intros j c' Hj. lia.
Defined.

(** X5. [unpause] stops at the first call that raises, whichever it is.
    If the calls before position [i] of the sequence (the [unpause] call,
    then the N interface-up commands) return and the call at position [i]
    raises, then exactly the first [i + 1] calls are issued and the
    exception is the result; in particular when the [unpause] call itself
    raises no interface command is issued, and when an interface command
    raises the container stays unpaused with the later interfaces down. *)
Theorem unpause_stops_at_first_failure
    (rt : Runtime) (self : DockerNode) (h : list Call)
    (i : nat) (c : Call) (e : Exc) :
  NoDup (ports self).*1 ->
  let sequence :=
    Client_unpause (container_id self) :: (interface_command true <$> ports self) in
  sequence !! i = Some c ->
  (forall j c', j < i -> sequence !! j = Some c' ->
     exists v, rt (h ++ take j sequence) c' = Returns v) ->
  rt (h ++ take i sequence) c = Raises e ->
  unpause rt self h = mkRun self (h ++ take (Datatypes.S i) sequence) (inl e).
Proof.
  intros Hnd sequence Hi Hbefore Hraise.
  rewrite unpause_issue by done. by eapply issue_first_failure.
Qed.

Lemma unpause_stops_at_first_failure_witness :
  unpause rt_shell_fails n1 []
  = mkRun n1
      [Client_unpause (VStr "c0ffee"); Node_call "ip link set dev eth1 up" "bash"]
      (inl (APIError "exec")).
Proof.
  assert (Hnd : NoDup (ports n1).*1)
    by (apply (bool_decide_unpack _); vm_compute; exact I).
  refine (unpause_stops_at_first_failure rt_shell_fails n1 [] 1
            (Node_call "ip link set dev eth1 up" "bash")
            (APIError "exec") Hnd eq_refl _ eq_refl).
  intros j c' Hj Hc. destruct j as [|j]; [|lia].
  injection Hc as <-. eexists. reflexivity.
Defined.

Example unpause_call_fails :
  unpause rt_unpause_fails n1 []
  = mkRun n1 [Client_unpause (VStr "c0ffee")] (inl (APIError "unpause")).
Proof. reflexivity. Qed.

(** X6. The container is never paused with an interface left up: whatever
    the collaborators do, if [pause] issues the [pause] call at all, the N
    interface-down commands were all issued before it. *)
Theorem pause_call_after_all_downs
    (rt : Runtime) (self : DockerNode) (h out : list Call) :
  NoDup (ports self).*1 ->
  tr (pause rt self h) = h ++ out ->
  Client_pause (container_id self) ∈ out ->
  out = (interface_command false <$> ports self)
          ++ [Client_pause (container_id self)].
Proof.
  intros Hnd Htr Hin. rewrite pause_issue in Htr by done.
  destruct (issue_take (S := DockerNode) rt
              ((interface_command false <$> ports self)
                 ++ [Client_pause (container_id self)]) self h)
    as (k & Hk & Hk').
  rewrite Hk' in Htr. apply (inj (app h)) in Htr. subst out.
  rewrite length_app, length_fmap in Hk. cbn in Hk.
  destruct (decide (k <= length (ports self))) as [Hle|Hgt].
  - rewrite take_app_le in Hin by (rewrite length_fmap; lia).
    by apply pause_call_not_interface_command in Hin.
  - apply take_ge. rewrite length_app, length_fmap. cbn. lia.
Qed.

Lemma pause_call_after_all_downs_witness :
  [Node_call "ip link set dev eth1 down" "bash";
   Node_call "ip link set dev eth2 down" "bash";
   Client_pause (VStr "c0ffee")]
  = (interface_command false <$> ports n1) ++ [Client_pause (container_id n1)].
Proof.
  assert (Hnd : NoDup (ports n1).*1)
    by (apply (bool_decide_unpack _); vm_compute; exact I).
  refine (pause_call_after_all_downs rt_ok n1 [] _ Hnd eq_refl _).
  do 2 right. left.
Defined.

(** ** Runs that return *)

Lemma bind_returns {S A B : Type} (m : M S A) (k : A -> M S B)
    (rt : Runtime) (s : S) (h : list Call) (b : B) :
  val (bind m k rt s h) = inr b ->
  exists a,
    val (m rt s h) = inr a /\
    bind m k rt s h = k a rt (st (m rt s h)) (tr (m rt s h)).
Proof.
  unfold bind. destruct (val (m rt s h)) as [e|a]; [done|]. by exists a.
Qed.

Lemma issue_returns_run {S : Type} (rt : Runtime) (cs : list Call) (s : S)
    (h : list Call) :
  val (issue cs rt s h) = inr tt ->
  issue cs rt s h = mkRun s (h ++ cs) (inr tt).
Proof.
  intros Hv. pose proof (issue_ok rt cs s h Hv) as Htr.
  pose proof (issue_st rt cs s h) as Hst.
  destruct (issue cs rt s h); cbn in *. by subst.
Qed.

Lemma start_returns_run (rt : Runtime) (self : DockerNode) (h : list Call) :
  val (start rt self h) = inr tt ->
  exists pid,
    start rt self h =
      mkRun (set_pid pid self)
        (h ++ [Client_start (container_id self);
               Client_inspect_container (container_id self)]) (inr tt).
Proof.
  unfold start, bind, call. cbn.
  destruct (rt h _); cbn; [|done].
  destruct (rt (h ++ [_]) _) as [inspected|]; cbn; [|done].
  destruct (getitem inspected "State") as [|state]; cbn; [done|].
  destruct (getitem state "Pid") as [|pid]; cbn; [done|].
  intros _. exists pid. by rewrite <- app_assoc.
Qed.

Lemma stop_returns_run (rt : Runtime) (self : DockerNode) (h : list Call) :
  val (stop rt self h) = inr tt ->
  stop rt self h =
    mkRun self
      (h ++ [Client_stop (container_id self); Client_wait (container_id self);
             Client_remove_container (container_id self)]) (inr tt).
Proof.
  unfold stop, bind, call. cbn.
  destruct (rt h _); cbn; [|done].
  destruct (rt (h ++ [_]) _); cbn; [|done].
  destruct (rt ((h ++ [_]) ++ [_]) _); cbn; [|done].
  intros _. by rewrite <- !app_assoc.
Qed.

(** ** Composing the operations *)

(** X7. Pausing and then unpausing a node addresses the same interfaces
    in the same order: when [pause] followed by [unpause] returns, the
    calls are the N interface-down commands, the [pause] call, the
    [unpause] call, and the N interface-up commands for the same interfaces
    in the same order; the node is as before. *)
Theorem pause_then_unpause
    (rt : Runtime) (self : DockerNode) (h : list Call) :
  NoDup (ports self).*1 ->
  val ((pause ;;; unpause) rt self h) = inr tt ->
  (pause ;;; unpause) rt self h =
    mkRun self
      (h ++ ((fun iface => Node_call (ip_link_set iface false) "bash")
               <$> (ports self).*2)
         ++ [Client_pause (container_id self); Client_unpause (container_id self)]
         ++ ((fun iface => Node_call (ip_link_set iface true) "bash")
               <$> (ports self).*2))
      (inr tt).
Proof.
  intros Hnd Hv. pose proof Hv as Hv'.
  apply bind_returns in Hv' as ([] & Hpause & Heq). rewrite Heq in Hv |- *.
  rewrite pause_issue in Hpause, Hv |- * by done.
  rewrite (issue_returns_run _ _ _ _ Hpause) in Hv |- *. cbn [st tr] in *.
  rewrite unpause_issue in Hv |- * by done.
  rewrite (issue_returns_run _ _ _ _ Hv).
  rewrite <- !list_fmap_compose, <- !app_assoc. reflexivity.
Qed.

Lemma pause_then_unpause_witness :
  (pause ;;; unpause) rt_ok n1 [] =
    mkRun n1
      [Node_call "ip link set dev eth1 down" "bash";
       Node_call "ip link set dev eth2 down" "bash";
       Client_pause (VStr "c0ffee");
       Client_unpause (VStr "c0ffee");
       Node_call "ip link set dev eth1 up" "bash";
       Node_call "ip link set dev eth2 up" "bash"]
      (inr tt).
Proof.
  assert (Hnd : NoDup (ports n1).*1)
    by (apply (bool_decide_unpack _); vm_compute; exact I).
  exact (pause_then_unpause rt_ok n1 [] Hnd eq_refl).
Defined.

(** X8. A whole life of a node: when [start], [pause], [unpause] and
    [stop] run one after the other and the last returns, the calls are, in
    this order, start and inspect, the N interface-down commands, pause,
    unpause, the N interface-up commands, then stop, wait and remove, all
    docker calls on the one container id; the node ends as it began but for
    [_pid]. *)
Theorem whole_lifecycle
    (rt : Runtime) (self : DockerNode) (h : list Call) :
  NoDup (ports self).*1 ->
  val ((start ;;; pause ;;; unpause ;;; stop) rt self h) = inr tt ->
  let cid := container_id self in
  exists pid,
    (start ;;; pause ;;; unpause ;;; stop) rt self h =
      mkRun (set_pid pid self)
        (h ++ [Client_start cid; Client_inspect_container cid]
           ++ (interface_command false <$> ports self)
           ++ [Client_pause cid; Client_unpause cid]
           ++ (interface_command true <$> ports self)
           ++ [Client_stop cid; Client_wait cid; Client_remove_container cid])
        (inr tt).
Proof.
  intros Hnd Hv. cbn zeta. pose proof Hv as Hv'.
  apply bind_returns in Hv' as ([] & Hstart & Heq). rewrite Heq in Hv |- *.
  destruct (start_returns_run _ _ _ Hstart) as (pid & Hrun).
  rewrite Hrun in Hv |- *. cbn [st tr] in *. clear Heq Hrun Hstart.
  exists pid. pose proof Hv as Hv'.
  apply bind_returns in Hv' as ([] & Hpause & Heq). rewrite Heq in Hv |- *.
  rewrite pause_issue in Hpause, Hv |- * by done.
  rewrite (issue_returns_run _ _ _ _ Hpause) in Hv |- *. cbn [st tr] in *.
  clear Heq Hpause. pose proof Hv as Hv'.
  apply bind_returns in Hv' as ([] & Hunpause & Heq). rewrite Heq in Hv |- *.
  rewrite unpause_issue in Hunpause, Hv |- * by done.
  rewrite (issue_returns_run _ _ _ _ Hunpause) in Hv |- *. cbn [st tr] in *.
  rewrite (stop_returns_run _ _ _ Hv). cbn.
  by rewrite <- !app_assoc.
Qed.

Lemma whole_lifecycle_witness :
  tr ((start ;;; pause ;;; unpause ;;; stop) rt_ok n1 []) =
    [Client_start (VStr "c0ffee"); Client_inspect_container (VStr "c0ffee");
     Node_call "ip link set dev eth1 down" "bash";
     Node_call "ip link set dev eth2 down" "bash";
     Client_pause (VStr "c0ffee"); Client_unpause (VStr "c0ffee");
     Node_call "ip link set dev eth1 up" "bash";
     Node_call "ip link set dev eth2 up" "bash";
     Client_stop (VStr "c0ffee"); Client_wait (VStr "c0ffee");
     Client_remove_container (VStr "c0ffee")].
Proof.
  assert (Hnd : NoDup (ports n1).*1)
    by (apply (bool_decide_unpack _); vm_compute; exact I).
  destruct (whole_lifecycle rt_ok n1 [] Hnd eq_refl) as (pid & Hrun).
  exact (f_equal tr Hrun).
Defined.

(** X9. The container a node starts is the one its construction created:
    when construction returns a node and [start] on that node returns, the
    start and inspect calls carry the ['Id'] of the creation response. *)
Theorem start_targets_created_container
    (rt : Runtime) (h : list Call)
    (ident image command : string) (binds : value)
    (network_mode : string) (self_id : Z) (node : DockerNode) :
  let built := __init__ ident image command binds network_mode self_id rt tt h in
  val built = inr node ->
  val (start rt node (tr built)) = inr tt ->
  exists host_config created cid,
    let configure := Client_create_host_config true network_mode binds in
    let create :=
      Client_create_container image command (container_name ident self_id)
        true true host_config in
    rt (h ++ [Client_init]) configure = Returns host_config /\
    rt (h ++ [Client_init; configure]) create = Returns created /\
    getitem created "Id" = inr cid /\
    tr (start rt node (tr built)) =
      h ++ [Client_init; configure; create;
            Client_start cid; Client_inspect_container cid].
Proof.
  cbn zeta. intros Hbuilt Hstart.
  destruct (start_returns_run _ _ _ Hstart) as (pid & ->). cbn [tr].
  revert Hbuilt. unfold __init__, bind, call. cbn.
  destruct (rt h _) as [client|]; cbn; [|done].
  destruct (rt (h ++ [_]) _) as [hc|] eqn:Hhc; cbn; [|done].
  destruct (rt ((h ++ [_]) ++ [_]) _) as [created|] eqn:Hc; cbn; [|done].
  destruct (getitem created "Id") as [|cid] eqn:Hid; cbn; [done|].
  intros [= <-]. cbn. exists hc, created, cid.
  rewrite <- !app_assoc in *. by cbn in *.
Qed.

Lemma start_targets_created_container_witness :
  exists node,
    val (__init__ "n1" default_image default_command default_binds
           default_network_mode 140234 rt_ok tt []) = inr node /\
    tr (start rt_ok node
          (tr (__init__ "n1" default_image default_command default_binds
                 default_network_mode 140234 rt_ok tt []))) =
      [Client_init;
       Client_create_host_config true "none" VNone;
       Client_create_container "ubuntu" "bash" "n1_140234" true true VNone;
       Client_start (VStr "c0ffee"); Client_inspect_container (VStr "c0ffee")].
Proof.
  eexists. split; [reflexivity|].
  destruct (start_targets_created_container rt_ok [] "n1" default_image
              default_command default_binds default_network_mode 140234
              _ eq_refl eq_refl)
    as (hc & created & cid & H0 & H1 & H2 & Htr).
  injection H0 as <-. injection H1 as <-. injection H2 as <-. exact Htr.
Defined.

(** ** What the operations touch *)

(** X10. No method of the class adds, removes or renames a port, changes
    the identifier or replaces the client: [start], [stop], [pause],
    [unpause], [port_state] and the three notification hooks leave
    [ports], [identifier] and [_client] as they were, whether they return
    or raise.  In particular [notify_add_biport] only names the interface;
    it does not record it. *)
Theorem registry_never_modified
    (rt : Runtime) (self : DockerNode) (h : list Call) :
  let kept := fun s : DockerNode =>
    ports s = ports self /\ identifier s = identifier self
    /\ _client s = _client self in
  kept (st (start rt self h)) /\
  kept (st (stop rt self h)) /\
  kept (st (pause rt self h)) /\
  kept (st (unpause rt self h)) /\
  (forall portlbl state, kept (st (port_state portlbl state rt self h))) /\
  (forall node biport, kept (st (notify_add_biport node biport rt self h))) /\
  (forall nodeport bilink, kept (st (notify_add_bilink nodeport bilink rt self h))) /\
  kept (st (notify_post_build rt self h)).
Proof.
  cbn zeta.
  split; [by repeat split; apply start_frame|].
  split; [repeat split; apply stop_frame|].
  split; [repeat split; apply pause_frame|].
  split; [repeat split; apply unpause_frame|].
  split; [intros; repeat split; apply port_state_frame|].
  done.
Qed.

Lemma port_state_own_calls (cid : value) (rt : Runtime) (self : DockerNode)
    (h : list Call) (portlbl : string) (state : bool) :
  exists out,
    tr (port_state portlbl state rt self h) = h ++ out /\
    Forall (own_call cid) out.
Proof.
  destruct (assoc portlbl (ports self)) as [iface|] eqn:Hl.
  - rewrite (port_state_present _ _ _ _ iface) by done.
    unfold bind, call. cbn. eexists [_].
    split; [by destruct (rt h _)|]. by repeat constructor.
  - exists []. unfold port_state, bind, ports_getitem. cbn. rewrite Hl. cbn.
    by rewrite app_nil_r.
Qed.

Lemma for_each_port_state_own_calls (cid : value) (rt : Runtime)
    (self : DockerNode) (state : bool) (labels : list string) (h : list Call) :
  exists out,
    tr (for_each labels (fun portlbl => port_state portlbl state) rt self h)
      = h ++ out /\
    Forall (own_call cid) out.
Proof.
  revert h. induction labels as [|l labels IH]; intros h; cbn [for_each].
  - exists []. by rewrite app_nil_r.
  - destruct (port_state_own_calls cid rt self h l state) as (out1 & Htr1 & Hown1).
    unfold bind. destruct (val (port_state l state rt self h)); cbn [st tr val].
    + by exists out1.
    + assert (st (port_state l state rt self h) = self) as ->
        by apply (port_state_frame id).
      rewrite Htr1.
      destruct (IH (h ++ out1)) as (out2 & -> & Hown2).
      exists (out1 ++ out2). split; [by rewrite app_assoc|].
      by apply Forall_app.
Qed.

(** X11. A node only ever acts on its own container and only through
    bash: whatever the collaborators do, every call issued by [start],
    [stop], [pause], [unpause] or [port_state] is a docker call carrying the
    node's own [container_id] or a command run with the shell bash; none of
    them creates a container or a client, and [start] and [stop] run no
    command in the node. *)
Theorem operations_stay_on_own_container
    (rt : Runtime) (self : DockerNode) (h : list Call) :
  let own := fun r : Run DockerNode unit =>
    exists out, tr r = h ++ out /\ Forall (own_call (container_id self)) out in
  let no_shell := fun r : Run DockerNode unit =>
    exists out, tr r = h ++ out /\ Forall (fun c => is_shell_command c = false) out in
  own (start rt self h) /\
  own (stop rt self h) /\
  own (pause rt self h) /\
  own (unpause rt self h) /\
  (forall portlbl state, own (port_state portlbl state rt self h)) /\
  no_shell (start rt self h) /\
  no_shell (stop rt self h).
Proof.
  cbn zeta.
  assert (forall P : Call -> Prop,
            P (Client_start (container_id self)) ->
            P (Client_inspect_container (container_id self)) ->
            exists out, tr (start rt self h) = h ++ out /\ Forall P out) as Hstart.
  { intros P P1 P2. unfold start, bind, call. cbn.
    destruct (rt h _); cbn; [|by eexists [_]; repeat constructor].
    destruct (rt (h ++ [_]) _) as [inspected|]; cbn;
      [|rewrite <- app_assoc; by eexists [_; _]; repeat constructor].
    rewrite <- app_assoc.
    destruct (getitem inspected "State") as [|state]; cbn;
      [by eexists [_; _]; repeat constructor|].
    destruct (getitem state "Pid"); cbn; by eexists [_; _]; repeat constructor. }
  assert (forall P : Call -> Prop,
            P (Client_stop (container_id self)) ->
            P (Client_wait (container_id self)) ->
            P (Client_remove_container (container_id self)) ->
            exists out, tr (stop rt self h) = h ++ out /\ Forall P out) as Hstop.
  { intros P P1 P2 P3. unfold stop, bind, call. cbn.
    destruct (rt h _); cbn; [|by eexists [_]; repeat constructor].
    destruct (rt (h ++ [_]) _); cbn;
      [|rewrite <- app_assoc; by eexists [_; _]; repeat constructor].
    rewrite <- !app_assoc.
    destruct (rt (h ++ _) _); cbn; by eexists [_; _; _]; repeat constructor. }
  split; [by apply Hstart|]. split; [by apply Hstop|].
  split; [|split; [|split; [|split; [by apply Hstart|by apply Hstop]]]].
  - (* pause *)
    destruct (for_each_port_state_own_calls (container_id self) rt self false
                (ports self).*1 h) as (out1 & Htr1 & Hown1).
    unfold pause, bind at 1 2. cbn.
    destruct (val (for_each _ _ rt self h)); cbn; [by exists out1|].
    assert (st (for_each (ports self).*1
                  (fun portlbl => port_state portlbl false) rt self h) = self) as ->
      by (apply (frame_for_each id); intros; apply port_state_frame).
    unfold bind, call. cbn. rewrite Htr1.
    exists (out1 ++ [Client_pause (container_id self)]).
    split; [by destruct (rt _ _); cbn; rewrite app_assoc|].
    apply Forall_app. split; [done|by repeat constructor].
  - (* unpause *)
    unfold unpause, bind at 1 2, call. cbn.
    destruct (rt h _); cbn; [|by eexists [_]; repeat constructor].
    destruct (for_each_port_state_own_calls (container_id self) rt self true
                (ports self).*1 (h ++ [Client_unpause (container_id self)]))
      as (out2 & Htr2 & Hown2).
    exists (Client_unpause (container_id self) :: out2).
    split; [|by constructor].
    unfold bind. rewrite <- app_assoc in Htr2.
    by destruct (val (for_each _ _ rt self _)).
  - intros portlbl state. apply port_state_own_calls.
Qed.

Lemma port_state_reads_ports (rt : Runtime) (s1 s2 : DockerNode) (h : list Call)
    (portlbl : string) (state : bool) :
  ports s1 = ports s2 ->
  tr (port_state portlbl state rt s1 h) = tr (port_state portlbl state rt s2 h) /\
  val (port_state portlbl state rt s1 h) = val (port_state portlbl state rt s2 h).
Proof.
  intros Hports. unfold port_state, bind, ports_getitem, call. cbn.
  rewrite Hports. destruct (assoc portlbl (ports s2)); cbn; [|done].
  by destruct (rt h _).
Qed.

Lemma for_each_port_state_reads_ports (rt : Runtime) (s1 s2 : DockerNode)
    (state : bool) (labels : list string) (h : list Call) :
  ports s1 = ports s2 ->
  let run := for_each labels (fun portlbl => port_state portlbl state) rt in
  run s1 h = mkRun s1 (tr (run s2 h)) (val (run s2 h)).
Proof.
  intros Hports. cbn zeta. revert h.
  induction labels as [|l labels IH]; intros h; cbn [for_each]; [done|].
  destruct (port_state_reads_ports rt s1 s2 h l state Hports) as [Htr Hval].
  unfold bind. rewrite Htr, Hval.
  assert (st (port_state l state rt s1 h) = s1) as ->
    by apply (port_state_frame id).
  assert (st (port_state l state rt s2 h) = s2) as ->
    by apply (port_state_frame id).
  destruct (val (port_state l state rt s2 h)); cbn [st tr val]; [done|].
  apply IH.
Qed.

Lemma for_each_port_state_st (rt : Runtime) (self : DockerNode) (state : bool)
    (labels : list string) (h : list Call) :
  st (for_each labels (fun portlbl => port_state portlbl state) rt self h) = self.
Proof. apply (frame_for_each id). intros. apply port_state_frame. Qed.

Lemma pause_reads_container_and_ports (rt : Runtime) (s1 s2 : DockerNode)
    (h : list Call) :
  container_id s1 = container_id s2 -> ports s1 = ports s2 ->
  pause rt s1 h = mkRun s1 (tr (pause rt s2 h)) (val (pause rt s2 h)).
Proof.
  intros Hcid Hports. unfold pause, bind at 1 2 5 6 9 10. cbn [get st tr val].
  rewrite (for_each_port_state_reads_ports rt s1 s2) by done.
  rewrite Hports. cbn [st tr val].
  pose proof (for_each_port_state_st rt s2 false (ports s2).*1 h) as Hst.
  destruct (for_each _ _ rt s2 h) as [s' h' [e|[]]]; cbn in *; [done|]. subst s'.
  unfold bind, call. cbn. rewrite Hcid. by destruct (rt h' _).
Qed.

Lemma unpause_reads_container_and_ports (rt : Runtime) (s1 s2 : DockerNode)
    (h : list Call) :
  container_id s1 = container_id s2 -> ports s1 = ports s2 ->
  unpause rt s1 h = mkRun s1 (tr (unpause rt s2 h)) (val (unpause rt s2 h)).
Proof.
  intros Hcid Hports. unfold unpause, bind, call. cbn. rewrite Hcid.
  destruct (rt h _); cbn; [|done].
  rewrite (for_each_port_state_reads_ports rt s1 s2) by done.
  rewrite Hports. cbn.
  by destruct (for_each _ _ rt s2 _) as [s' h' [e|[]]].
Qed.

(** X12. No operation reads [_pid]: with any other value recorded as the
    process id of the node, [start], [stop], [pause], [unpause] and
    [port_state] issue the same calls and give the same result.  In
    particular [stop], [pause] and [unpause] do the same on a node that was
    started and on one that never was. *)
Theorem operations_do_not_read_pid
    (rt : Runtime) (self : DockerNode) (h : list Call) (pid : value) :
  let same := fun r1 r2 : Run DockerNode unit =>
    tr r1 = tr r2 /\ val r1 = val r2 in
  same (start rt (set_pid pid self) h) (start rt self h) /\
  same (stop rt (set_pid pid self) h) (stop rt self h) /\
  same (pause rt (set_pid pid self) h) (pause rt self h) /\
  same (unpause rt (set_pid pid self) h) (unpause rt self h) /\
  (forall portlbl state,
     same (port_state portlbl state rt (set_pid pid self) h)
          (port_state portlbl state rt self h)).
Proof.
  cbn zeta.
  split; [|split; [|split; [|split]]].
  - unfold start, bind, call. cbn.
    destruct (rt h _); cbn; [|done].
    destruct (rt (h ++ [_]) _) as [inspected|]; cbn; [|done].
    destruct (getitem inspected "State") as [|state]; cbn; [done|].
    by destruct (getitem state "Pid").
  - unfold stop, bind, call. cbn.
    destruct (rt h _); cbn; [|done].
    destruct (rt (h ++ [_]) _); cbn; [|done].
    by destruct (rt ((h ++ [_]) ++ [_]) _).
  - by rewrite (pause_reads_container_and_ports rt (set_pid pid self) self).
  - by rewrite (unpause_reads_container_and_ports rt (set_pid pid self) self).
  - intros portlbl state. by apply port_state_reads_ports.
Qed.

Example stop_on_started_node :
  tr (stop rt_ok (set_pid (VInt 4242) n1) []) = tr (stop rt_ok n1 []).
Proof. reflexivity. Qed.

(** ** The interface command *)

Lemma string_length_app (s t : string) :
  String.length (s +:+ t) = String.length s + String.length t.
Proof.
  induction s as [|c s IH]; [done|]. rewrite string_app_cons. cbn. by rewrite IH.
Qed.

Lemma string_app_assoc (s t u : string) : (s +:+ t) +:+ u = s +:+ t +:+ u.
Proof.
  induction s as [|c s IH]; [done|]. rewrite !string_app_cons. by rewrite IH.
Qed.

(** Two concatenations with endings of the same length agree part by part. *)
Lemma string_app_inj_length (s1 s2 t1 t2 : string) :
  String.length t1 = String.length t2 ->
  s1 +:+ t1 = s2 +:+ t2 ->
  s1 = s2 /\ t1 = t2.
Proof.
  intros Hlen. revert s2.
  induction s1 as [|c s1 IH]; intros [|c' s2] Heq;
    repeat rewrite ?string_app_nil_l, ?string_app_cons in Heq.
  - done.
  - subst t1. cbn in Hlen. rewrite string_length_app in Hlen. lia.
  - subst t2. cbn in Hlen. rewrite string_length_app in Hlen. lia.
  - simplify_eq. by destruct (IH s2) as [-> ->].
Qed.

(** X13. The command tells the interface and the state apart: two
    interface commands are the same text only for the same interface name
    and the same state, so an up command is never a down command and
    commands for different interfaces differ. *)
Theorem ip_link_set_inj (iface1 iface2 : string) (state1 state2 : bool) :
  ip_link_set iface1 state1 = ip_link_set iface2 state2 ->
  iface1 = iface2 /\ state1 = state2.
Proof.
  unfold ip_link_set. intros Heq. apply (inj (String.app _)) in Heq.
  destruct state1, state2.
  - by apply string_app_inj_length in Heq as [-> _].
  - change (iface2 +:+ " " +:+ "down") with (iface2 +:+ " do" +:+ "wn") in Heq.
    rewrite <- !string_app_assoc in Heq.
    by apply string_app_inj_length in Heq as [_ ?].
  - change (iface1 +:+ " " +:+ "down") with (iface1 +:+ " do" +:+ "wn") in Heq.
    rewrite <- !string_app_assoc in Heq.
    by apply string_app_inj_length in Heq as [_ ?].
  - by apply string_app_inj_length in Heq as [-> _].
Qed.

Lemma ip_link_set_inj_witness :
  ip_link_set "eth1" false = "ip link set dev eth1 down" /\
  ("eth1" = "eth1" /\ false = false).
Proof.
  split; [reflexivity|].
  exact (ip_link_set_inj "eth1" "eth1" false false eq_refl).
Defined.
